(** * sentryfiber: the Sentry middleware for Fiber

    A shallow embedding of [fiber/sentryfiber.go] and the properties of its
    request-scoped capture and recovery protocol.

    Go strings are byte strings ([string]); [time.Duration] is an [int64]
    count of nanoseconds ([Z]); a Go pointer that may be [nil] is an
    [option]; a Go map is a [gmap]. Code that panics, recovers and writes to
    the hub, the logger and the per-request store runs in the monad [M]
    below: a state monad over [World] whose outcome is a value or a panic. *)

From Stdlib Require Import Ascii ZArith Bool.
From Stdlib Require String.
From stdpp Require Import base option list gmap strings.

(** ** Go strings *)

Module strings.

(** One byte of [strings.ToLower] on ASCII text: 'A'..'Z' go to 'a'..'z',
    every other byte stays. The texts lowered here are error messages, taken
    to be ASCII; Go lowers the upper-case letters of Unicode as well. *)
Definition lower_byte (c : ascii) : ascii :=
  let n := nat_of_ascii c in
  if (65 <=? n)%nat && (n <=? 90)%nat then ascii_of_nat (n + 32) else c.

Fixpoint ToLower (s : string) : string :=
  match s with
  | EmptyString => EmptyString
  | String c s' => String (lower_byte c) (ToLower s')
  end.

(** [strings.Contains s substr]: [substr] starts at some position of [s]. *)
Fixpoint Contains (s substr : string) : bool :=
  if String.prefix substr s then true
  else match s with
       | EmptyString => false
       | String _ s' => Contains s' substr
       end.

End strings.

(** ** Errors and panic values *)

(** The error values the classifier tells apart, by dynamic type.
    [OpError] is [*net.OpError], [SyscallError] is [*os.SyscallError];
    every other error type is [ErrorString], given by the text of its
    [Error()]. The pointers and the [Err] fields are not nil, as package
    [net] and [os.NewSyscallError] build them. *)
Inductive error : Type :=
| OpError (Op Net : string) (Source Addr : option string) (Err : error)
| SyscallError (Syscall : string) (Err : error)
| ErrorString (s : string).

(** The [Error()] method of each type. *)
Fixpoint Error (e : error) : string :=
  match e with
  | OpError op net source addr err =>
      let s := op in
      let s := if String.eqb net "" then s else s +:+ " " +:+ net in
      let s := match source with Some a => s +:+ " " +:+ a | None => s end in
      let s := match addr with
               | Some a => (match source with Some _ => s +:+ "->" | None => s +:+ " " end) +:+ a
               | None => s
               end in
      s +:+ ": " +:+ Error err
  | SyscallError syscall err => syscall +:+ ": " +:+ Error err
  | ErrorString s => s
  end.

(** A non-nil [interface{}] value, as [panic] takes and [recover] gives it
    back: an error, a string, or a run-time error raised by the Go runtime.
    The nil that [recover()] gives when nothing panics is the [None] of
    [option any]. *)
Inductive any : Type :=
| AnyError (e : error)
| AnyString (s : string)
| RuntimeError (msg : string).

(** The run-time panic of a nil pointer dereference. *)
Definition nilDereference : any :=
  RuntimeError "invalid memory address or nil pointer dereference".

(** [fmt.Sprintf("%v", v)]. *)
Definition Sprint (v : any) : string :=
  match v with
  | AnyError e => Error e
  | AnyString s => s
  | RuntimeError msg => "runtime error: " +:+ msg
  end.

(** Check for a broken connection, as this is what Fiber does already. *)
Definition isBrokenPipeError (err : any) : bool :=
  match err with
  | AnyError (OpError _ _ _ _ netErr_Err) =>
      match netErr_Err with
      | SyscallError _ _ as sysErr =>
          if strings.Contains (strings.ToLower (Error sysErr)) "broken pipe"
             || strings.Contains (strings.ToLower (Error sysErr)) "connection reset by peer"
          then true else false
      | _ => false
      end
  | _ => false
  end.

(** ** Configuration *)

Definition Duration : Type := Z.
Definition Second : Duration := 1000000000%Z.

Record handler : Type := mkHandler {
  repanic : bool;
  waitForDelivery : bool;
  timeout : Duration
}.

Record Options : Type := mkOptions {
  Repanic : bool;
  WaitForDelivery : bool;
  Timeout : Duration
}.

(** [Options{}]: every field at its zero value. *)
Definition zeroOptions : Options :=
  {| Repanic := false; WaitForDelivery := false; Timeout := 0%Z |}.

(** [New(options ...Options)]: the variadic arguments are the list
    [options]. The result stands for the method value [(&handler{..}).handle]:
    the handler whose [handle] is installed. *)
Definition New (options : list Options) : handler :=
  let opts := {| Repanic := true; WaitForDelivery := true; Timeout := (2 * Second)%Z |} in
  let opts := if (length options =? 1)%nat
              then match options with o :: _ => o | [] => opts end
              else opts in
  let timeout := Timeout opts in
  let timeout := if (timeout =? 0)%Z then (2 * Second)%Z else timeout in
  {| repanic := Repanic opts;
     timeout := timeout;
     waitForDelivery := WaitForDelivery opts |}.

(** ** The Go packages the middleware calls *)

(** [net/textproto]: canonical header keys. A key of token bytes gets an
    upper-case first letter and an upper-case letter after each dash, the
    other letters lower-case; any other key is left as it is. *)
Module textproto.

Definition isLower (c : ascii) : bool :=
  let n := nat_of_ascii c in (97 <=? n)%nat && (n <=? 122)%nat.
Definition isUpper (c : ascii) : bool :=
  let n := nat_of_ascii c in (65 <=? n)%nat && (n <=? 90)%nat.
Definition isDigit (c : ascii) : bool :=
  let n := nat_of_ascii c in (48 <=? n)%nat && (n <=? 57)%nat.

Definition validHeaderFieldByte (c : ascii) : bool :=
  isLower c || isUpper c || isDigit c
  || existsb (Ascii.eqb c) (String.list_ascii_of_string "!#$%&'*+-.^_`|~").

Fixpoint canonicalMIMEHeaderKey (upper : bool) (a : string) : string :=
  match a with
  | EmptyString => EmptyString
  | String c a' =>
      let c := if upper && isLower c then ascii_of_nat (nat_of_ascii c - 32)
               else if negb upper && isUpper c then ascii_of_nat (nat_of_ascii c + 32)
               else c in
      String c (canonicalMIMEHeaderKey (Ascii.eqb c "-"%char) a')
  end.

Definition CanonicalMIMEHeaderKey (s : string) : string :=
  if forallb validHeaderFieldByte (String.list_ascii_of_string s)
  then canonicalMIMEHeaderKey true s
  else s.

End textproto.

(** [net/url]: the fields of [url.URL] that the snapshot shows. [url.Parse]
    itself is a parameter of the middleware below. *)
Module url.

Record URL : Type := mkURL {
  Scheme : string;
  Host : string;
  Path : string;
  RawQuery : string
}.

End url.

(** [net/http]: the header multi-map and the request that [convert] fills. *)
Module http.

(** [http.Header] is [map[string][]string]. *)
Abbreviation Header := (gmap string (list string)).

(** [h[key]]: the values under a key, the nil slice when there are none. *)
Definition Values (h : Header) (key : string) : list string :=
  default [] (h !! key).

Definition Add (key value : string) (h : Header) : Header :=
  let key := textproto.CanonicalMIMEHeaderKey key in
  <[key := Values h key ++ [value]]> h.

Definition Set_ (key value : string) (h : Header) : Header :=
  <[textproto.CanonicalMIMEHeaderKey key := [value]]> h.

Definition Get (key : string) (h : Header) : string :=
  match Values h (textproto.CanonicalMIMEHeaderKey key) with
  | v :: _ => v
  | [] => ""
  end.

Record Cookie : Type := mkCookie { Name : string; Value : string }.

Record Request : Type := mkRequest {
  Method : string;
  URL : option url.URL;
  Header_ : Header;
  Host : string;
  RemoteAddr : string;
  Body : option string
}.

(** [new(http.Request)]: every field at its zero value. The header map of
    the model is empty where Go's is nil; [convert] replaces it before any
    use. *)
Definition zeroRequest : Request :=
  {| Method := ""; URL := None; Header_ := ∅; Host := "";
     RemoteAddr := ""; Body := None |}.

(** [r.AddCookie(c)], with the two sanitisers of [net/http] as
    parameters: the cookie is appended to the one "Cookie" header line. *)
Definition AddCookie (sanitizeCookieName sanitizeCookieValue : string -> string)
    (c : Cookie) (h : Header) : Header :=
  let s := sanitizeCookieName (Name c) +:+ "=" +:+ sanitizeCookieValue (Value c) in
  let c := Get "Cookie" h in
  if negb (String.eqb c "") then Set_ "Cookie" (c +:+ "; " +:+ s) h
  else Add "Cookie" s h.

End http.

(** [fasthttp]: what [convert] and [handle] read of the native request.
    [Headers] and [Cookies] list the pairs in the order [VisitAll] and
    [VisitAllCookie] hand them to their callback. [HubValue] is what
    [sentry.GetHubFromContext] finds in the request context: a hub attached
    by an outer layer, or nil. *)
Module fasthttp.

Record RequestCtx : Type := mkRequestCtx {
  Method : string;
  URI_Scheme : string;
  URI_Host : string;
  URI_Path : string;
  URI_QueryString : string;
  Host : string;
  Headers : list (string * string);
  Cookies : list (string * string);
  RemoteAddr : string;
  Body : string;
  HubValue : option nat
}.

End fasthttp.

(** [sentry]: hubs live in a heap and are named by their address, so that
    a clone is a new hub and two names of one hub are told apart from two
    hubs. A hub pairs the shared client with its own scope. *)
Module sentry.

Record Hub : Type := mkHub {
  Client : nat;
  Tags : gmap string string;
  Request : option http.Request
}.

Definition EventID : Type := string.

Definition emptyHub : Hub := {| Client := 0; Tags := ∅; Request := None |}.

(** [hub.Clone()]: a hub at a fresh address, with the client and a copy
    of the scope of [hub]. *)
Definition Clone (hub : nat) (hubs : gmap nat Hub) : nat * gmap nat Hub :=
  let p := fresh (dom hubs) in
  (p, <[p := default emptyHub (hubs !! hub)]> hubs).

(** [hub.Scope().SetRequest(r)]. *)
Definition SetRequest (hub : nat) (r : option http.Request) (hubs : gmap nat Hub)
    : gmap nat Hub :=
  alter (fun h => {| Client := Client h; Tags := Tags h; Request := r |}) hub hubs.

End sentry.

(** ** The world of one request *)

(** A value kept in the per-request store of [fiber.Ctx]: a [*sentry.Hub]
    or a value of another type. *)
Inductive LocalValue : Type :=
| HubValue (hub : nat)
| OtherValue (s : string).

(** What the middleware does to the reporting client and the logger. *)
Inductive Event : Type :=
| Printf (msg : string)
| RecoverWithContext (hub : nat) (r : http.Request) (err : any)
| Flush (hub : nat) (timeout : Duration).

(** The state around one call of the handler: the native request behind
    [ctx.Context()], the store behind [ctx.Locals], the heap of hubs with
    the address of [sentry.CurrentHub()], the number of [http.Request]
    values allocated with [new] so far, and the calls made so far to the
    reporting client and the logger, oldest first. *)
Record World : Type := mkWorld {
  context : fasthttp.RequestCtx;
  locals : gmap string LocalValue;
  hubs : gmap nat sentry.Hub;
  currentHub : nat;
  newRequests : nat;
  events : list Event
}.


Definition set_locals (f : gmap string LocalValue -> gmap string LocalValue) (w : World) : World :=
  {| context := context w; locals := f (locals w); hubs := hubs w;
     currentHub := currentHub w; newRequests := newRequests w; events := events w |}.

Definition set_hubs (f : gmap nat sentry.Hub -> gmap nat sentry.Hub) (w : World) : World :=
  {| context := context w; locals := locals w; hubs := f (hubs w);
     currentHub := currentHub w; newRequests := newRequests w; events := events w |}.

Definition set_newRequests (f : nat -> nat) (w : World) : World :=
  {| context := context w; locals := locals w; hubs := hubs w;
     currentHub := currentHub w; newRequests := f (newRequests w); events := events w |}.

Definition set_events (f : list Event -> list Event) (w : World) : World :=
  {| context := context w; locals := locals w; hubs := hubs w;
     currentHub := currentHub w; newRequests := newRequests w; events := f (events w) |}.

(** How a call ends: it returns a value, or a panic leaves it. *)
Inductive Outcome (A : Type) : Type :=
| Returned (a : A)
| Panicked (v : any).
Arguments Returned {A} a.
Arguments Panicked {A} v.

Definition M (A : Type) : Type := World -> Outcome A * World.

#[global] Instance M_ret : MRet M := fun A a w => (Returned a, w).

#[global] Instance M_bind : MBind M := fun A B k m w =>
  match m w with
  | (Returned a, w') => k a w'
  | (Panicked v, w') => (Panicked v, w')
  end.

Definition panic {A} (v : any) : M A := fun w => (Panicked v, w).

Definition gets {A} (f : World -> A) : M A := fun w => (Returned (f w), w).

Definition modify (f : World -> World) : M unit := fun w => (Returned tt, f w).

(** [defer f(); body] in a function with one unnamed result, for a deferred
    [f] that calls [recover()] first thing: [f] runs when [body] is left and
    gets what [recover()] gives, nil after a return and the panic value after
    a panic. When [f] returns after a panic the panic is over and the function
    returns the zero value of its result; a panic of [f] leaves the
    function. *)
Definition defer {A} (zero : A) (f : option any -> M unit) (body : M A) : M A :=
  fun w => match body w with
           | (Returned a, w1) =>
               match f None w1 with
               | (Returned _, w2) => (Returned a, w2)
               | (Panicked v, w2) => (Panicked v, w2)
               end
           | (Panicked err, w1) =>
               match f (Some err) w1 with
               | (Returned _, w2) => (Returned zero, w2)
               | (Panicked v, w2) => (Panicked v, w2)
               end
           end.

(** ** The middleware *)

Definition valuesKey : string := "sentry".

Section sentryfiber.

(** The library functions the middleware relies on: [url.Parse], which
    gives nil for a text it rejects; the cookie sanitisers of [net/http];
    and the identifier [hub.RecoverWithContext] returns, nil when the
    client drops the report. *)
Variable url_Parse : string -> option url.URL.
Variable sanitizeCookieName sanitizeCookieValue : string -> string.
Variable eventID : World -> nat -> http.Request -> any -> option sentry.EventID.

(** [sentry.Logger.Printf("%v", err)]. *)
Definition Logger_Printf (err : any) : M unit :=
  modify (set_events (fun l => l ++ [Printf (Sprint err)])).

(** [new(http.Request)]. *)
Definition new_Request : M http.Request :=
  modify (set_newRequests S);; mret http.zeroRequest.

Definition convert (ctx : fasthttp.RequestCtx) : M (option http.Request) :=
  defer None
    (fun err => match err with
                | Some err => Logger_Printf err
                | None => mret tt
                end)
    (r ← new_Request;
     let r_Method := fasthttp.Method ctx in
     (* Ignore error. *)
     let r_URL := url_Parse (fasthttp.URI_Scheme ctx +:+ "://" +:+ fasthttp.URI_Host ctx
                             +:+ fasthttp.URI_Path ctx) in
     (* Headers *)
     let r_Header : http.Header := ∅ in
     let r_Header := http.Add "Host" (fasthttp.Host ctx) r_Header in
     let r_Header := foldl (fun h kv => http.Add kv.1 kv.2 h) r_Header
                           (fasthttp.Headers ctx) in
     let r_Host := fasthttp.Host ctx in
     (* Cookies *)
     let r_Header :=
       foldl (fun h kv =>
                http.AddCookie sanitizeCookieName sanitizeCookieValue
                               {| http.Name := kv.1; http.Value := kv.2 |} h)
             r_Header (fasthttp.Cookies ctx) in
     (* Env *)
     let r_RemoteAddr := fasthttp.RemoteAddr ctx in
     (* QueryString: r.URL is dereferenced *)
     match r_URL with
     | None => panic nilDereference
     | Some u =>
         let u := {| url.Scheme := url.Scheme u; url.Host := url.Host u;
                     url.Path := url.Path u;
                     url.RawQuery := fasthttp.URI_QueryString ctx |} in
         (* Body *)
         mret (Some {| http.Method := r_Method; http.URL := Some u;
                       http.Header_ := r_Header; http.Host := r_Host;
                       http.RemoteAddr := r_RemoteAddr;
                       http.Body := Some (fasthttp.Body ctx) |})
     end).

(** [hub.RecoverWithContext(context.WithValue(r.Context(),
    sentry.RequestContextKey, r), err)]: the report is handed to the
    client with the request as its context value. *)
Definition Hub_RecoverWithContext (hub : nat) (r : http.Request) (err : any)
    : M (option sentry.EventID) :=
  id ← gets (fun w => eventID w hub r err);
  modify (set_events (fun l => l ++ [RecoverWithContext hub r err]));;
  mret id.

Definition Hub_Flush (hub : nat) (timeout : Duration) : M unit :=
  modify (set_events (fun l => l ++ [Flush hub timeout])).

(** The deferred call of [handle]. [recovered] is what [recover()] gives;
    [r] is nil when [convert] returned nil, and [r.Context()] then
    dereferences the nil pointer. *)
Definition recoverWithSentry (h : handler) (hub : nat) (r : option http.Request)
    (recovered : option any) : M unit :=
  match recovered with
  | Some err =>
      (if negb (isBrokenPipeError err) then
         match r with
         | None => panic nilDereference
         | Some r =>
             eventID ← Hub_RecoverWithContext hub r err;
             if bool_decide (eventID ≠ None) && waitForDelivery h
             then Hub_Flush hub (timeout h)
             else mret tt
         end
       else mret tt);;
      if repanic h then panic err else mret tt
  | None => mret tt
  end.

(** [handle(ctx)]: the state of [ctx] is in the world; [Next] is the rest
    of the chain, [ctx.Next()]. The arguments of the deferred call are
    evaluated at the [defer] statement. *)
Definition handle (h : handler) (Next : M (option error)) : M (option error) :=
  hub ← gets (fun w => fasthttp.HubValue (context w));
  hub ← match hub with
        | None =>
            current ← gets currentHub;
            hs ← gets hubs;
            let '(p, hs) := sentry.Clone current hs in
            modify (set_hubs (fun _ => hs));; mret p
        | Some hub => mret hub
        end;
  ctx ← gets context;
  r ← convert ctx;
  modify (set_hubs (sentry.SetRequest hub r));;
  modify (set_locals (<[valuesKey := HubValue hub]>));;
  ctx ← gets context;
  r ← convert ctx;
  defer None (recoverWithSentry h hub r) Next.

(** [GetHubFromContext] retrieves the attached [*sentry.Hub] instance from
    [fiber.Ctx]. The type assertion panics on a value of another type. *)
Definition GetHubFromContext : M (option nat) :=
  hub ← gets (fun w => locals w !! valuesKey);
  match hub with
  | Some (HubValue hub) => mret (Some hub)
  | Some (OtherValue _) =>
      panic (RuntimeError "interface conversion: interface {} is not *sentry.Hub")
  | None => mret None
  end.

End sentryfiber.

(** ** The example application *)

(** [hub.Scope().SetTag(key, value)]: the tag is written into the scope of
    that hub. *)
Definition Hub_Scope_SetTag (hub : nat) (key value : string) : M unit :=
  modify (set_hubs (alter (fun h => {| sentry.Client := sentry.Client h;
                                       sentry.Tags := <[key := value]> (sentry.Tags h);
                                       sentry.Request := sentry.Request h |}) hub)).

(** What [example/fiber/main.go] installs after the middleware: the handler
    that tags the hub of the request and goes on, and the route "/foo". *)
Module example.

(** [sentryfiber.Options{Repanic: true}]. *)
Definition options : Options :=
  {| Repanic := true; WaitForDelivery := false; Timeout := 0%Z |}.

Definition tagMiddleware (Next : M (option error)) : M (option error) :=
  hub ← GetHubFromContext;
  match hub with
  | Some hub => Hub_Scope_SetTag hub "someRandomTag" "maybeYouNeedIt"
  | None => mret tt
  end;;
  Next.

Definition foo : M (option error) := panic (AnyString "y tho").

End example.

(** ** A concrete setting *)

(** Inputs for the examples below. [Parse] follows [url.Parse] on the texts
    [convert] assembles: a text with an ASCII control byte is rejected, as
    [net/url] does before anything else; the others are cut at "://", at
    the first "?" and at the first "/" of what follows. The sanitisers leave
    a plain name or value as it is; the client accepts every report. *)
Module Sample.

Definition stringContainsCTLByte (s : string) : bool :=
  existsb (fun c => let n := nat_of_ascii c in (n <? 32)%nat || (n =? 127)%nat)
          (String.list_ascii_of_string s).

Definition cut (sep s : string) : option (string * string) :=
  match String.index 0 sep s with
  | Some i => Some (String.substring 0 i s,
                    String.substring (i + String.length sep)
                                     (String.length s - (i + String.length sep)) s)
  | None => None
  end.

Definition Parse (rawURL : string) : option url.URL :=
  if stringContainsCTLByte rawURL then None
  else
    let '(scheme, rest) := default ("", rawURL) (cut "://" rawURL) in
    let '(rest, query) := default (rest, "") (cut "?" rest) in
    let '(host, path) :=
      match String.index 0 "/" rest with
      | Some i => (String.substring 0 i rest,
                   String.substring i (String.length rest - i) rest)
      | None => (rest, "")
      end in
    Some {| url.Scheme := scheme; url.Host := host; url.Path := path;
            url.RawQuery := query |}.

Definition sanitize (s : string) : string := s.

Definition accept (w : World) (hub : nat) (r : http.Request) (err : any)
    : option sentry.EventID :=
  Some "0123456789abcdef0123456789abcdef".

(** GET http://example.com/foo?x=1 with a header, a cookie and the Host
    header that the native header scan lists as well. *)
Definition request : fasthttp.RequestCtx :=
  {| fasthttp.Method := "GET";
     fasthttp.URI_Scheme := "http";
     fasthttp.URI_Host := "example.com";
     fasthttp.URI_Path := "/foo";
     fasthttp.URI_QueryString := "x=1";
     fasthttp.Host := "example.com";
     fasthttp.Headers := [("Host", "example.com"); ("X-Test", "a"); ("Cookie", "c=v")];
     fasthttp.Cookies := [("c", "v")];
     fasthttp.RemoteAddr := "192.0.2.1:4711";
     fasthttp.Body := "";
     fasthttp.HubValue := None |}.

(** The same request for the path "/%01": its decoded path holds the
    control byte 0x01, and [url.Parse] rejects the assembled text. *)
Definition malformed : fasthttp.RequestCtx :=
  {| fasthttp.Method := "GET";
     fasthttp.URI_Scheme := "http";
     fasthttp.URI_Host := "example.com";
     fasthttp.URI_Path := String "/" (String (ascii_of_nat 1) EmptyString);
     fasthttp.URI_QueryString := "";
     fasthttp.Host := "example.com";
     fasthttp.Headers := [("Host", "example.com")];
     fasthttp.Cookies := [];
     fasthttp.RemoteAddr := "192.0.2.1:4711";
     fasthttp.Body := "";
     fasthttp.HubValue := None |}.

Definition baseline : sentry.Hub :=
  {| sentry.Client := 1; sentry.Tags := {["release" := "1.0"]}; sentry.Request := None |}.

(** A world with the process-wide hub at address 0 and nothing stored. *)
Definition world (ctx : fasthttp.RequestCtx) : World :=
  {| context := ctx; locals := ∅; hubs := {[0 := baseline]}; currentHub := 0;
     newRequests := 0; events := [] |}.

(** The route of the example application: [panic("y tho")]. *)
Definition yTho : M (option error) := panic (AnyString "y tho").



(** The sample request when an outer layer has put the hub at address 0
    into the request context. *)
Definition withHub (hub : nat) (ctx : fasthttp.RequestCtx) : fasthttp.RequestCtx :=
  {| fasthttp.Method := fasthttp.Method ctx;
     fasthttp.URI_Scheme := fasthttp.URI_Scheme ctx;
     fasthttp.URI_Host := fasthttp.URI_Host ctx;
     fasthttp.URI_Path := fasthttp.URI_Path ctx;
     fasthttp.URI_QueryString := fasthttp.URI_QueryString ctx;
     fasthttp.Host := fasthttp.Host ctx;
     fasthttp.Headers := fasthttp.Headers ctx;
     fasthttp.Cookies := fasthttp.Cookies ctx;
     fasthttp.RemoteAddr := fasthttp.RemoteAddr ctx;
     fasthttp.Body := fasthttp.Body ctx;
     fasthttp.HubValue := Some hub |}.

(** A route that returns without an error. *)
Definition ok : M (option error) := mret None.


End Sample.

(** ** The classification in the words of the specification *)

(** Two texts are equal up to the case of their ASCII letters. *)
Definition EqualFold (a b : string) : Prop :=
  strings.ToLower a = strings.ToLower b.

(** [msg] contains [substr], case-insensitively: some stretch of [msg] is
    [substr] up to case. *)
Definition ContainsFold (msg substr : string) : Prop :=
  ∃ pre mid post, msg = pre +:+ mid +:+ post ∧ EqualFold mid substr.

(** A benign network failure: a network-operation error that wraps a
    system-call error whose message contains one of the two texts. *)
Definition benign (err : any) : Prop :=
  ∃ op net source addr syscall e,
    err = AnyError (OpError op net source addr (SyscallError syscall e)) ∧
    (ContainsFold (Error (SyscallError syscall e)) "broken pipe" ∨
     ContainsFold (Error (SyscallError syscall e)) "connection reset by peer").

(** * Properties *)

(** ** Go strings *)

Section string_facts.

Lemma prefix_append (a s : string) :
  String.prefix a s = true ↔ ∃ post, s = a +:+ post.
Proof.
  revert a. induction s as [|y s IH]; intros [|x a]; simpl.
  - split; [by exists EmptyString | done].
  - split; [done | by intros [post ?]].
  - split; [by eexists | done].
  - destruct (ascii_dec x y) as [->|Hne].
    + rewrite IH. split; intros [post Hpost]; exists post.
      * by rewrite Hpost.
      * by injection Hpost.
    + split; [done | intros [post Hpost]; by injection Hpost].
Qed.

Lemma Contains_unfold (s substr : string) :
  strings.Contains s substr =
    if String.prefix substr s then true
    else match s with
         | EmptyString => false
         | String _ s' => strings.Contains s' substr
         end.
Proof. by destruct s. Qed.

Lemma Contains_append (s substr : string) :
  strings.Contains s substr = true ↔ ∃ pre post, s = pre +:+ substr +:+ post.
Proof.
  induction s as [|y s IH]; rewrite Contains_unfold.
  - destruct (String.prefix substr EmptyString) eqn:Hp.
    + split; [intros _ | done].
      apply prefix_append in Hp as [post Hpost]. by exists EmptyString, post.
    + split; [done | intros (pre & post & Heq)].
      destruct pre; [|done]. simpl in Heq.
      rewrite <- Hp. apply prefix_append. by exists post.
  - destruct (String.prefix substr (String y s)) eqn:Hp.
    + split; [intros _ | done].
      apply prefix_append in Hp as [post Hpost]. by exists EmptyString, post.
    + rewrite IH. split.
      * intros (pre & post & ->). by exists (String y pre), post.
      * intros (pre & post & Heq). destruct pre as [|x pre]; simpl in Heq.
        -- assert (String.prefix substr (String y s) = true) as Hp'
             by (apply prefix_append; by exists post).
           congruence.
        -- exists pre, post. by injection Heq.
Qed.

Lemma ToLower_append (a b : string) :
  strings.ToLower (a +:+ b) = strings.ToLower a +:+ strings.ToLower b.
Proof.
  induction a as [|x a IH]; [done|].
  change (String (strings.lower_byte x) (strings.ToLower (a +:+ b))
          = String (strings.lower_byte x) (strings.ToLower a +:+ strings.ToLower b)).
  by rewrite IH.
Qed.

Lemma ToLower_append_inv (s a b : string) :
  strings.ToLower s = a +:+ b →
  ∃ s1 s2, s = s1 +:+ s2 ∧ strings.ToLower s1 = a ∧ strings.ToLower s2 = b.
Proof.
  revert s. induction a as [|x a IH]; intros s Heq; simpl in Heq.
  - by exists EmptyString, s.
  - destruct s as [|y s]; simpl in Heq; [done|].
    injection Heq as Hx Hs. destruct (IH _ Hs) as (s1 & s2 & -> & <- & <-).
    exists (String y s1), s2. simpl. by rewrite Hx.
Qed.

(** The classifier's test, [strings.Contains(strings.ToLower(msg), substr)]
    for a lower-case [substr], is containment up to case. *)
Lemma Contains_ToLower (msg substr : string) :
  strings.ToLower substr = substr →
  strings.Contains (strings.ToLower msg) substr = true ↔ ContainsFold msg substr.
Proof.
  intros Hlow. rewrite Contains_append. unfold ContainsFold, EqualFold. split.
  - intros (pre' & post' & Heq).
    apply ToLower_append_inv in Heq as (pre & rest & -> & _ & Hrest).
    apply ToLower_append_inv in Hrest as (mid & post & -> & Hmid & _).
    exists pre, mid, post. split; [done | congruence].
  - intros (pre & mid & post & -> & Hmid).
    exists (strings.ToLower pre), (strings.ToLower post).
    rewrite !ToLower_append. congruence.
Qed.

End string_facts.

(** ** The panic interceptor *)

Section interceptor.

Variable eventID : World → nat → http.Request → any → option sentry.EventID.

(** Nothing was recovered: the deferred call does nothing. *)
Lemma recoverWithSentry_no_panic h hub r w :
  recoverWithSentry eventID h hub r None w = (Returned tt, w).
Proof. done. Qed.

(** A benign failure leaves the world as it is. *)
Lemma recoverWithSentry_benign h hub r err w :
  isBrokenPipeError err = true →
  recoverWithSentry eventID h hub r (Some err) w
  = (if repanic h then Panicked err else Returned tt, w).
Proof.
  intros Hb. unfold recoverWithSentry. rewrite Hb. simpl.
  unfold mbind, M_bind, mret, M_ret. by destruct (repanic h).
Qed.

(** Any other failure, with a snapshot at hand: one report, then the
    flush when the report got an identifier and delivery is awaited. *)
Lemma recoverWithSentry_report h hub r err w :
  isBrokenPipeError err = false →
  recoverWithSentry eventID h hub (Some r) (Some err) w
  = (if repanic h then Panicked err else Returned tt,
     set_events (λ l, l ++ RecoverWithContext hub r err ::
                      (if bool_decide (eventID w hub r err ≠ None) && waitForDelivery h
                       then [Flush hub (timeout h)] else [])) w).
Proof.
  intros Hb. unfold recoverWithSentry, Hub_RecoverWithContext, Hub_Flush. rewrite Hb.
  unfold mbind, M_bind, mret, M_ret, gets, modify, panic. simpl.
  destruct (bool_decide _ && waitForDelivery h); simpl;
    destruct (repanic h); unfold set_events; simpl;
    by rewrite <- ?app_assoc.
Qed.

(** Any other failure, with a nil snapshot: [r.Context()] panics before
    anything is reported, and that panic leaves the interceptor. *)
Lemma recoverWithSentry_nil h hub err w :
  isBrokenPipeError err = false →
  recoverWithSentry eventID h hub None (Some err) w = (Panicked nilDereference, w).
Proof. intros Hb. unfold recoverWithSentry. by rewrite Hb. Qed.



End interceptor.

(** The classifier decides the benign failures of the specification. *)
Lemma isBrokenPipeError_benign (err : any) :
  isBrokenPipeError err = true ↔ benign err.
Proof.
  unfold benign. split.
  - destruct err as [[op net source addr [|syscall e|]| |]| |]; try done.
    unfold isBrokenPipeError. intros Hc.
    destruct (_ || _) eqn:Hor in Hc; [|done].
    apply orb_true_iff in Hor as [Hor|Hor];
      apply Contains_ToLower in Hor; try done;
      exists op, net, source, addr, syscall, e; eauto.
  - intros (op & net & source & addr & syscall & e & -> & Hc).
    unfold isBrokenPipeError.
    assert (strings.Contains (strings.ToLower (Error (SyscallError syscall e))) "broken pipe"
            || strings.Contains (strings.ToLower (Error (SyscallError syscall e)))
                 "connection reset by peer" = true) as ->; [|done].
    apply orb_true_iff.
    destruct Hc as [Hc|Hc]; [left|right]; by apply Contains_ToLower.
Qed.

(** C1, at a request whose URL [url.Parse] rejects: the snapshot handed to
    the interceptor is nil, so for the failure "y tho" of the downstream
    chain, which is not benign, and the default configuration, which
    re-raises, no report reaches the client and the panic that leaves the
    handler is the nil dereference of the interceptor, not "y tho". *)
Theorem handle_malformed_request_loses_failure :
  repanic (New []) = true ∧
  isBrokenPipeError (AnyString "y tho") = false ∧
  ∃ w',
    handle Sample.Parse Sample.sanitize Sample.sanitize Sample.accept
           (New []) Sample.yTho (Sample.world Sample.malformed)
    = (Panicked nilDereference, w') ∧
    events w' = [Printf (Sprint nilDereference); Printf (Sprint nilDereference)].
Proof. repeat split. eexists. split; [vm_compute; reflexivity | reflexivity]. Qed.



(** C4: once a failure that is not benign has been submitted, the
    interceptor calls the flush, with the configured timeout, if and only
    if the submission returned an identifier and the handler waits for
    delivery; the submission and this flush are all it asks of the
    client. *)
Theorem flush_iff_eventID_and_waitForDelivery
    (eventID : World → nat → http.Request → any → option sentry.EventID)
    (h : handler) (hub : nat) (r : http.Request) (err : any) (w : World) :
  isBrokenPipeError err = false →
  ∃ waits,
    events (recoverWithSentry eventID h hub (Some r) (Some err) w).2
    = events w ++ RecoverWithContext hub r err :: waits ∧
    (waits = [Flush hub (timeout h)] ∨ waits = []) ∧
    (waits = [Flush hub (timeout h)] ↔
     eventID w hub r err ≠ None ∧ waitForDelivery h = true).
Proof.
  intros Hb. rewrite recoverWithSentry_report by done. simpl.
  destruct (bool_decide (eventID w hub r err ≠ None)) eqn:Hid;
    [apply bool_decide_eq_true in Hid | apply bool_decide_eq_false in Hid];
    destruct (waitForDelivery h); simpl; eexists; (split; [reflexivity|]);
    split; eauto; split; try done; intros [? ?]; done.
Qed.

Lemma flush_iff_eventID_and_waitForDelivery_witness :
  isBrokenPipeError (AnyString "y tho") = false ∧
  ∃ waits,
    events (recoverWithSentry Sample.accept (New []) 1 (Some http.zeroRequest)
              (Some (AnyString "y tho")) (Sample.world Sample.request)).2
    = events (Sample.world Sample.request)
      ++ RecoverWithContext 1 http.zeroRequest (AnyString "y tho") :: waits ∧
    (waits = [Flush 1 (timeout (New []))] ∨ waits = []) ∧
    (waits = [Flush 1 (timeout (New []))] ↔
     Sample.accept (Sample.world Sample.request) 1 http.zeroRequest (AnyString "y tho")
       ≠ None ∧ waitForDelivery (New []) = true).
Proof.
  split; [reflexivity|].
  apply (flush_iff_eventID_and_waitForDelivery
           Sample.accept (New []) 1 http.zeroRequest (AnyString "y tho")
           (Sample.world Sample.request)).
  reflexivity.
Defined.

(** ** The request snapshot builder *)

Section header_facts.

Implicit Types (h : http.Header) (key k v : string).

Lemma Values_Add k v h key :
  http.Values (http.Add k v h) key
  = if decide (textproto.CanonicalMIMEHeaderKey k = key)
    then http.Values h key ++ [v] else http.Values h key.
Proof.
  unfold http.Add, http.Values. case_decide as Hk.
  - subst key. by rewrite lookup_insert_eq.
  - by rewrite lookup_insert_ne.
Qed.

Lemma Values_Set k v h key :
  textproto.CanonicalMIMEHeaderKey k ≠ key →
  http.Values (http.Set_ k v h) key = http.Values h key.
Proof. intros Hk. unfold http.Set_, http.Values. by rewrite lookup_insert_ne. Qed.

(** Scanning a list of headers appends, under each key, the values of
    the entries with that canonical key, in the order of the scan. *)
Lemma Values_foldl_Add (l : list (string * string)) h key :
  http.Values (foldl (λ h kv, http.Add kv.1 kv.2 h) h l) key
  = http.Values h key
    ++ (filter (λ kv, textproto.CanonicalMIMEHeaderKey kv.1 = key) l).*2.
Proof.
  revert h. induction l as [|[k v] l IH]; intros h; simpl.
  - by rewrite app_nil_r.
  - rewrite IH, Values_Add, filter_cons. simpl.
    case_decide; [|done]. by rewrite fmap_cons, <- app_assoc.
Qed.

Lemma Values_AddCookie (sn sv : string → string) (c : http.Cookie) h key :
  key ≠ "Cookie" →
  http.Values (http.AddCookie sn sv c h) key = http.Values h key.
Proof.
  intros Hk. unfold http.AddCookie.
  destruct (negb _).
  - by apply Values_Set.
  - rewrite Values_Add. by case_decide.
Qed.

Lemma Values_foldl_AddCookie (sn sv : string → string) (l : list (string * string)) h key :
  key ≠ "Cookie" →
  http.Values (foldl (λ h kv, http.AddCookie sn sv
                                {| http.Name := kv.1; http.Value := kv.2 |} h) h l) key
  = http.Values h key.
Proof.
  intros Hk. revert h. induction l as [|kv l IH]; intros h; simpl; [done|].
  by rewrite IH, Values_AddCookie.
Qed.

End header_facts.

Section snapshot.

Variable url_Parse : string → option url.URL.
Variable sanitizeCookieName sanitizeCookieValue : string → string.

Local Abbreviation convert_ :=
  (convert url_Parse sanitizeCookieName sanitizeCookieValue).

(** The text [convert] hands to [url.Parse]. *)
Let rawURL (ctx : fasthttp.RequestCtx) : string :=
  fasthttp.URI_Scheme ctx +:+ "://" +:+ fasthttp.URI_Host ctx +:+ fasthttp.URI_Path ctx.

(** When the URL parses, [convert] returns the filled snapshot. *)
Lemma convert_parsed ctx u w :
  url_Parse (rawURL ctx) = Some u →
  ∃ r, convert_ ctx w = (Returned (Some r), set_newRequests S w) ∧
       http.Method r = fasthttp.Method ctx ∧
       http.URL r = Some {| url.Scheme := url.Scheme u; url.Host := url.Host u;
                            url.Path := url.Path u;
                            url.RawQuery := fasthttp.URI_QueryString ctx |} ∧
       http.Host r = fasthttp.Host ctx ∧
       http.RemoteAddr r = fasthttp.RemoteAddr ctx ∧
       http.Body r = Some (fasthttp.Body ctx) ∧
       http.Header_ r
       = foldl (λ h kv, http.AddCookie sanitizeCookieName sanitizeCookieValue
                          {| http.Name := kv.1; http.Value := kv.2 |} h)
               (foldl (λ h kv, http.Add kv.1 kv.2 h)
                      (http.Add "Host" (fasthttp.Host ctx) ∅) (fasthttp.Headers ctx))
               (fasthttp.Cookies ctx).
Proof.
  intros Hu. eexists. split.
  - unfold convert, defer, new_Request.
    unfold mbind, M_bind, mret, M_ret, modify. simpl.
    fold (rawURL ctx). rewrite Hu. reflexivity.
  - done.
Qed.

(** When [url.Parse] rejects the text, the assignment to [r.URL.RawQuery]
    panics, the deferred function logs the panic, and [convert] returns
    nil. *)
Lemma convert_rejected ctx w :
  url_Parse (rawURL ctx) = None →
  convert_ ctx w
  = (Returned None,
     set_events (λ l, l ++ [Printf (Sprint nilDereference)]) (set_newRequests S w)).
Proof.
  intros Hu. unfold convert, defer, new_Request.
  unfold mbind, M_bind, mret, M_ret, modify. simpl.
  fold (rawURL ctx). by rewrite Hu.
Qed.

(** No panic leaves [convert], and the value it returns depends on the
    native request alone. *)
Lemma convert_never_panics ctx :
  ∃ r, ∀ w, ∃ w',
    convert_ ctx w = (Returned r, w') ∧
    context w' = context w ∧ locals w' = locals w ∧ hubs w' = hubs w ∧
    currentHub w' = currentHub w ∧ newRequests w' = S (newRequests w).
Proof.
  destruct (url_Parse (rawURL ctx)) as [u|] eqn:Hu.
  - destruct (convert_parsed ctx u (mkWorld ctx ∅ ∅ 0 0 []) Hu) as (r & _ & Hr).
    exists (Some r). intros w.
    destruct (convert_parsed ctx u w Hu) as (r' & Hc & Hr').
    assert (r' = r) as ->.
    { destruct r, r'; simpl in *.
      destruct Hr as (-> & -> & -> & -> & -> & ->).
      destruct Hr' as (-> & -> & -> & -> & -> & ->). done. }
    by eexists.
  - exists None. intros w. rewrite convert_rejected by done. by eexists.
Qed.

(** [convert] returns nil exactly for the requests whose URL does not
    parse. *)
Lemma convert_nil_iff ctx w :
  (convert_ ctx w).1 = Returned None ↔ url_Parse (rawURL ctx) = None.
Proof.
  split.
  - intros Hc. destruct (url_Parse (rawURL ctx)) as [u|] eqn:Hu; [|done].
    destruct (convert_parsed ctx u w Hu) as (r & Hr & _).
    rewrite Hr in Hc. done.
  - intros Hu. by rewrite convert_rejected.
Qed.

End snapshot.

(** The snapshot of the sample request, field by field. The native header
    scan lists Host and Cookie too: Host ends up twice, and [AddCookie]
    joins the cookie to the Cookie line that is already there. *)
Example convert_request :
  ∃ r,
    convert Sample.Parse Sample.sanitize Sample.sanitize Sample.request
            (Sample.world Sample.request)
    = (Returned (Some r), set_newRequests S (Sample.world Sample.request)) ∧
    http.Method r = "GET" ∧
    http.URL r = Some {| url.Scheme := "http"; url.Host := "example.com";
                         url.Path := "/foo"; url.RawQuery := "x=1" |} ∧
    http.Header_ r = {[ "Host" := ["example.com"; "example.com"];
                        "X-Test" := ["a"];
                        "Cookie" := ["c=v; c=v"] ]} ∧
    http.Host r = "example.com" ∧
    http.RemoteAddr r = "192.0.2.1:4711" ∧
    http.Body r = Some "".
Proof. eexists. split; [vm_compute; reflexivity|]. repeat split. Qed.

(** C6, at a request whose URL [url.Parse] rejects: [convert] lets no
    failure out, but what it returns is nil, not a partly filled snapshot.
    The run-time panic of the assignment to [r.URL.RawQuery] is logged. *)
Theorem convert_malformed_URL_returns_nil :
  Sample.Parse "http://example.com/" ≠ None ∧
  Sample.Parse (fasthttp.URI_Scheme Sample.malformed +:+ "://"
                +:+ fasthttp.URI_Host Sample.malformed
                +:+ fasthttp.URI_Path Sample.malformed) = None ∧
  convert Sample.Parse Sample.sanitize Sample.sanitize Sample.malformed
          (Sample.world Sample.malformed)
  = (Returned None,
     set_events (λ l, l ++ [Printf "runtime error: invalid memory address or nil pointer dereference"])
                (set_newRequests S (Sample.world Sample.malformed))).
Proof. split; [done|]. split; [reflexivity|]. by apply convert_rejected. Qed.

(** C8: in every snapshot the values under "Host" start with the host of
    the connection, put there before the native headers are scanned; the
    values of the native Host headers follow it in the order of the scan,
    none replaces it. *)
Theorem snapshot_keeps_synthetic_Host
    (url_Parse : string → option url.URL)
    (sanitizeCookieName sanitizeCookieValue : string → string)
    (ctx : fasthttp.RequestCtx) (w w' : World) (r : http.Request) :
  convert url_Parse sanitizeCookieName sanitizeCookieValue ctx w = (Returned (Some r), w') →
  http.Values (http.Header_ r) "Host"
  = fasthttp.Host ctx
    :: (filter (λ kv, textproto.CanonicalMIMEHeaderKey kv.1 = "Host")
               (fasthttp.Headers ctx)).*2.
Proof.
  intros Hc.
  destruct (url_Parse (fasthttp.URI_Scheme ctx +:+ "://" +:+ fasthttp.URI_Host ctx
                       +:+ fasthttp.URI_Path ctx)) as [u|] eqn:Hu.
  - destruct (convert_parsed _ sanitizeCookieName sanitizeCookieValue ctx u w Hu)
      as (r' & Hc' & _ & _ & _ & _ & _ & Hh).
    rewrite Hc' in Hc. injection Hc as -> _. rewrite Hh.
    rewrite Values_foldl_AddCookie by done.
    rewrite Values_foldl_Add, Values_Add. by case_decide.
  - rewrite convert_rejected in Hc by done. done.
Qed.

Lemma snapshot_keeps_synthetic_Host_witness :
  let o := convert Sample.Parse Sample.sanitize Sample.sanitize Sample.request
                   (Sample.world Sample.request) in
  ∃ r, o = (Returned (Some r), o.2) ∧
       http.Values (http.Header_ r) "Host" = ["example.com"; "example.com"].
Proof.
  intros o.
  exists (match o.1 with Returned (Some r) => r | _ => http.zeroRequest end).
  assert (o = (Returned (Some match o.1 with
                                 | Returned (Some r) => r
                                 | _ => http.zeroRequest
                                 end), o.2)) as Ho by (vm_compute; reflexivity).
  split; [exact Ho|].
  etrans; [|reflexivity].
  exact (snapshot_keeps_synthetic_Host
           Sample.Parse Sample.sanitize Sample.sanitize Sample.request
           (Sample.world Sample.request) o.2 _ Ho).
Defined.

(** ** The scope context attacher *)

Section attacher.

Variable url_Parse : string → option url.URL.
Variable sanitizeCookieName sanitizeCookieValue : string → string.
Variable eventID : World → nat → http.Request → any → option sentry.EventID.

(** What [handle] has done when it calls the rest of the chain: the hub
    is chosen, both snapshots are built from the request as it came in,
    the first is set on the scope, the hub is stored, and the interceptor
    is deferred with the second snapshot as its argument. *)
Lemma handle_entry h Next w :
  ∃ hub r w1,
    handle url_Parse sanitizeCookieName sanitizeCookieValue eventID h Next w
    = defer None (recoverWithSentry eventID h hub r) Next w1 ∧
    (∀ w0, (convert url_Parse sanitizeCookieName sanitizeCookieValue
                    (context w) w0).1 = Returned r) ∧
    hub = match fasthttp.HubValue (context w) with
          | Some outer => outer
          | None => (sentry.Clone (currentHub w) (hubs w)).1
          end ∧
    hubs w1 = sentry.SetRequest hub r
                match fasthttp.HubValue (context w) with
                | Some _ => hubs w
                | None => (sentry.Clone (currentHub w) (hubs w)).2
                end ∧
    locals w1 = <[valuesKey := HubValue hub]> (locals w) ∧
    context w1 = context w ∧
    currentHub w1 = currentHub w ∧
    newRequests w1 = S (S (newRequests w)).
Proof.
  destruct (convert_never_panics url_Parse sanitizeCookieName sanitizeCookieValue
              (context w)) as [r Hr].
  assert (∀ w0, (convert url_Parse sanitizeCookieName sanitizeCookieValue
                         (context w) w0).1 = Returned r) as Hvalue.
  { intros w0. by destruct (Hr w0) as (? & -> & _). }
  unfold handle, mbind, M_bind, gets, modify, mret, M_ret.
  destruct (fasthttp.HubValue (context w)) as [outer|] eqn:Houter.
  - destruct (Hr w) as (wa & Hca & Hxa & Hla & Hha & Hua & Hna).
    rewrite Hca. cbv beta iota.
    change (context (set_locals _ (set_hubs _ wa))) with (context wa). rewrite Hxa.
    destruct (Hr (set_locals <[valuesKey:=HubValue outer]>
                    (set_hubs (sentry.SetRequest outer r) wa)))
      as (wb & Hcb & Hxb & Hlb & Hhb & Hub & Hnb).
    rewrite Hcb. cbv beta iota. exists outer, r, wb.
    rewrite Hxb, Hlb, Hhb, Hub, Hnb. simpl.
    by rewrite Hxa, Hla, Hha, Hua, Hna.
  - destruct (sentry.Clone (currentHub w) (hubs w)) as [p hs] eqn:Hclone.
    cbv beta iota.
    destruct (Hr (set_hubs (λ _, hs) w)) as (wa & Hca & Hxa & Hla & Hha & Hua & Hna).
    change (context (set_hubs _ w)) with (context w).
    rewrite Hca. cbv beta iota.
    change (context (set_locals _ (set_hubs _ wa))) with (context wa). rewrite Hxa.
    change (context (set_hubs _ w)) with (context w).
    destruct (Hr (set_locals <[valuesKey:=HubValue p]>
                    (set_hubs (sentry.SetRequest p r) wa)))
      as (wb & Hcb & Hxb & Hlb & Hhb & Hub & Hnb).
    rewrite Hcb. cbv beta iota. exists p, r, wb.
    rewrite Hxb, Hlb, Hhb, Hub, Hnb. simpl.
    by rewrite Hxa, Hla, Hha, Hua, Hna.
Qed.

(** A request whose URL does not parse reaches the interceptor with a nil
    snapshot. *)
Lemma handle_rejected_URL h Next w :
  url_Parse (fasthttp.URI_Scheme (context w) +:+ "://" +:+ fasthttp.URI_Host (context w)
             +:+ fasthttp.URI_Path (context w)) = None →
  ∃ hub w1,
    handle url_Parse sanitizeCookieName sanitizeCookieValue eventID h Next w
    = defer None (recoverWithSentry eventID h hub None) Next w1.
Proof.
  intros Hu. destruct (handle_entry h Next w) as (hub & r & w1 & Hh & Hr & _).
  exists hub, w1. rewrite Hh.
  specialize (Hr w). rewrite convert_rejected in Hr by done. by injection Hr as <-.
Qed.

(** For such a request, a failure of the chain that is not benign is lost:
    the panic that leaves [handle] is the nil dereference, whatever the
    configuration, and the world is as the chain left it, with no report. *)
Lemma handle_rejected_URL_loses_failure h Next w :
  url_Parse (fasthttp.URI_Scheme (context w) +:+ "://" +:+ fasthttp.URI_Host (context w)
             +:+ fasthttp.URI_Path (context w)) = None →
  ∃ w1, ∀ err w2,
    Next w1 = (Panicked err, w2) →
    isBrokenPipeError err = false →
    handle url_Parse sanitizeCookieName sanitizeCookieValue eventID h Next w
    = (Panicked nilDereference, w2).
Proof.
  intros Hu. destruct (handle_rejected_URL h Next w Hu) as (hub & w1 & Hh).
  exists w1. intros err w2 HNext Hb. rewrite Hh. unfold defer. rewrite HNext.
  by rewrite recoverWithSentry_nil.
Qed.

(** With a snapshot, the failure is reported once and, when the handler
    re-raises, leaves [handle] as the chain raised it. *)
Lemma handle_reports_and_repanics h Next w u :
  url_Parse (fasthttp.URI_Scheme (context w) +:+ "://" +:+ fasthttp.URI_Host (context w)
             +:+ fasthttp.URI_Path (context w)) = Some u →
  repanic h = true →
  ∃ hub r w1, ∀ err w2,
    Next w1 = (Panicked err, w2) →
    isBrokenPipeError err = false →
    ∃ waits,
      handle url_Parse sanitizeCookieName sanitizeCookieValue eventID h Next w
      = (Panicked err,
         set_events (λ l, l ++ RecoverWithContext hub r err :: waits) w2) ∧
      ∀ hub' r' err', RecoverWithContext hub' r' err' ∉ waits.
Proof.
  intros Hu Hre. destruct (handle_entry h Next w) as (hub & r & w1 & Hh & Hr & _).
  specialize (Hr w).
  destruct (convert_parsed url_Parse sanitizeCookieName sanitizeCookieValue
              (context w) u w Hu) as (r' & Hc & _).
  rewrite Hc in Hr. injection Hr as <-.
  exists hub, r', w1. intros err w2 HNext Hb. eexists. split.
  - rewrite Hh. unfold defer. rewrite HNext.
    rewrite recoverWithSentry_report by done. by rewrite Hre.
  - intros hub' r'' err' Hin.
    destruct (_ && _); [apply list_elem_of_singleton in Hin|]; by inversion Hin.
Qed.

End attacher.

(** C5, where an outer layer has attached the hub at address 0: the hub
    [handle] stores is that very hub, address 0, and no hub has been added
    to the heap; no clone of it exists. *)
Lemma handle_stores_outer_hub_itself :
  let w := Sample.world (Sample.withHub 0 Sample.request) in
  fasthttp.HubValue (context w) = Some 0 ∧
  ∃ w',
    handle Sample.Parse Sample.sanitize Sample.sanitize Sample.accept
           (New []) Sample.ok w = (Returned None, w') ∧
    locals w' !! valuesKey = Some (HubValue 0) ∧
    dom (hubs w') = dom (hubs w).
Proof.
  split; [reflexivity|]. eexists. split; [vm_compute; reflexivity|].
  split; [reflexivity|]. vm_compute. reflexivity.
Qed.

(** C5, amended: when the request context already holds a hub, [handle]
    stores that same hub and allocates none; otherwise it stores a clone of
    the current hub: a hub at an address not in use before, with the client
    and the tags of the current hub, while every hub that existed stays as
    it was. *)
Theorem handle_stores_outer_hub_or_clone
    (url_Parse : string → option url.URL)
    (sanitizeCookieName sanitizeCookieValue : string → string)
    (eventID : World → nat → http.Request → any → option sentry.EventID)
    (h : handler) (Next : M (option error)) (w : World) :
  ∃ hub r w1,
    handle url_Parse sanitizeCookieName sanitizeCookieValue eventID h Next w
    = defer None (recoverWithSentry eventID h hub r) Next w1 ∧
    locals w1 !! valuesKey = Some (HubValue hub) ∧
    match fasthttp.HubValue (context w) with
    | Some outer => hub = outer ∧ dom (hubs w1) = dom (hubs w)
    | None =>
        (hub ∉ dom (hubs w)) ∧
        (∃ clone, hubs w1 !! hub = Some clone ∧
                  sentry.Client clone
                  = sentry.Client (default sentry.emptyHub (hubs w !! currentHub w)) ∧
                  sentry.Tags clone
                  = sentry.Tags (default sentry.emptyHub (hubs w !! currentHub w))) ∧
        (∀ p, p ≠ hub → hubs w1 !! p = hubs w !! p)
    end.
Proof.
  destruct (handle_entry url_Parse sanitizeCookieName sanitizeCookieValue eventID h Next w)
    as (hub & r & w1 & Hh & _ & Hhub & Hhubs & Hlocals & _).
  exists hub, r, w1. split; [done|]. split.
  { rewrite Hlocals. apply lookup_insert_eq. }
  rewrite Hhubs. unfold sentry.SetRequest.
  destruct (fasthttp.HubValue (context w)) as [outer|].
  - split; [done|]. apply dom_alter_L.
  - unfold sentry.Clone in *. simpl in *. subst hub. split; [apply is_fresh|]. split.
    + eexists. rewrite lookup_alter_eq, lookup_insert_eq. simpl. done.
    + intros p Hp. rewrite lookup_alter_ne, lookup_insert_ne; done.
Qed.



(** ** The context accessor *)



(** ** The installation entry point *)



(** C10: with two or more [Options] values, [New] ignores them all: the
    handler is the one of the defaults, the same as with no value. *)
Theorem New_ignores_several_Options (options : list Options) :
  2 ≤ length options →
  New options = {| repanic := true; waitForDelivery := true; timeout := (2 * Second)%Z |} ∧
  New options = New [].
Proof.
  intros Hlen. destruct options as [|o1 [|o2 options]]; simpl in Hlen; try lia.
  split; reflexivity.
Qed.

Lemma New_ignores_several_Options_witness :
  2 ≤ length [zeroOptions; {| Repanic := false; WaitForDelivery := true; Timeout := (5 * Second)%Z |}] ∧
  New [zeroOptions; {| Repanic := false; WaitForDelivery := true; Timeout := (5 * Second)%Z |}]
  = {| repanic := true; waitForDelivery := true; timeout := (2 * Second)%Z |}.
Proof.
  split; [simpl; lia|].
  apply (New_ignores_several_Options
           [zeroOptions; {| Repanic := false; WaitForDelivery := true; Timeout := (5 * Second)%Z |}]).
  simpl. lia.
Defined.

(** * Further properties *)

(** ** The installation entry point and the flush *)

(** X1: whatever is passed to [New], the timeout of the handler is not
    zero. *)
Theorem New_timeout_never_zero (options : list Options) :
  timeout (New options) ≠ 0%Z.
Proof.
  unfold New. destruct options as [|o [|o' options]]; simpl; try done.
  destruct (Z.eqb_spec (Timeout o) 0); done.
Qed.

(** X2: one [Options] value with a timeout other than zero is taken as it
    is, field by field; a negative timeout too. *)
Theorem New_one_Option_verbatim (o : Options) :
  Timeout o ≠ 0%Z →
  New [o] = {| repanic := Repanic o; waitForDelivery := WaitForDelivery o;
               timeout := Timeout o |}.
Proof.
  intros Ht. unfold New. simpl. by destruct (Z.eqb_spec (Timeout o) 0).
Qed.

Lemma New_one_Option_verbatim_witness :
  New [{| Repanic := false; WaitForDelivery := true; Timeout := (-1)%Z |}]
  = {| repanic := false; waitForDelivery := true; timeout := (-1)%Z |}.
Proof.
  apply (New_one_Option_verbatim
           {| Repanic := false; WaitForDelivery := true; Timeout := (-1)%Z |}).
  simpl. lia.
Defined.

(** A flush the interceptor asks for is on its hub, with the timeout of
    its handler, and that handler waits for delivery. *)
Lemma recoverWithSentry_Flush
    (eventID : World → nat → http.Request → any → option sentry.EventID)
    (h : handler) (hub : nat) (r : option http.Request)
    (recovered : option any) (w : World) :
  ∃ new,
    events (recoverWithSentry eventID h hub r recovered w).2 = events w ++ new ∧
    ∀ hub' t, Flush hub' t ∈ new →
              hub' = hub ∧ t = timeout h ∧ waitForDelivery h = true.
Proof.
  destruct recovered as [err|];
    [destruct (isBrokenPipeError err) eqn:Hb; [|destruct r as [r|]]|].
  - rewrite recoverWithSentry_benign by done. exists []. simpl.
    rewrite app_nil_r. split; [done|]. by intros ?? ?%elem_of_nil.
  - rewrite recoverWithSentry_report by done. eexists. split; [done|].
    intros hub' t Hin. apply elem_of_cons in Hin as [Heq|Hin]; [done|].
    destruct (bool_decide _); simpl in Hin; [|by apply elem_of_nil in Hin].
    destruct (waitForDelivery h); [|by apply elem_of_nil in Hin].
    apply list_elem_of_singleton in Hin. by injection Hin as -> ->.
  - rewrite recoverWithSentry_nil by done. exists []. simpl.
    rewrite app_nil_r. split; [done|]. by intros ?? ?%elem_of_nil.
  - exists []. simpl. rewrite app_nil_r. split; [done|]. by intros ?? ?%elem_of_nil.
Qed.

(** X3: a flush the interceptor of an installed handler asks for is on the
    hub of the request, with the timeout of the handler, which is not zero,
    and the handler waits for delivery. *)
Theorem Flush_of_installed_handler
    (eventID : World → nat → http.Request → any → option sentry.EventID)
    (options : list Options) (hub : nat) (r : option http.Request)
    (recovered : option any) (w : World) :
  ∃ new,
    events (recoverWithSentry eventID (New options) hub r recovered w).2
    = events w ++ new ∧
    ∀ hub' t, Flush hub' t ∈ new →
              hub' = hub ∧ t = timeout (New options) ∧ t ≠ 0%Z ∧
              waitForDelivery (New options) = true.
Proof.
  destruct (recoverWithSentry_Flush eventID (New options) hub r recovered w)
    as (new & Hev & Hflush).
  exists new. split; [done|]. intros hub' t Hin.
  destruct (Hflush hub' t Hin) as (-> & -> & Hwait).
  repeat split; [|done]. apply New_timeout_never_zero.
Qed.

(** ** The classifier *)

Lemma string_append_assoc (a b c : string) : (a +:+ b) +:+ c = a +:+ b +:+ c.
Proof.
  induction a as [|x a IH]; [done|].
  change (String x ((a +:+ b) +:+ c) = String x (a +:+ b +:+ c)). by rewrite IH.
Qed.

Lemma ContainsFold_append_l (a b substr : string) :
  ContainsFold b substr → ContainsFold (a +:+ b) substr.
Proof.
  intros (pre & mid & post & -> & Hmid). exists (a +:+ pre), mid, post.
  split; [|done]. by rewrite string_append_assoc.
Qed.

(** X4: the classification looks at the message of the error behind the
    system call: when that message contains one of the two texts, in any
    case of the letters, the failure is benign whatever the system call, the
    network operation and the addresses are. *)
Theorem isBrokenPipeError_by_inner_message
    (op net : string) (source addr : option string) (syscall : string) (e : error) :
  ContainsFold (Error e) "broken pipe" ∨
  ContainsFold (Error e) "connection reset by peer" →
  isBrokenPipeError (AnyError (OpError op net source addr (SyscallError syscall e))) = true.
Proof.
  intros Hc. apply isBrokenPipeError_benign.
  exists op, net, source, addr, syscall, e. split; [done|].
  change (Error (SyscallError syscall e)) with (syscall +:+ ": " +:+ Error e).
  destruct Hc as [Hc|Hc]; [left|right]; by do 2 apply ContainsFold_append_l.
Qed.

Lemma isBrokenPipeError_by_inner_message_witness :
  isBrokenPipeError
    (AnyError (OpError "read" "tcp" (Some "10.0.0.1:80") (Some "10.0.0.2:4711")
                       (SyscallError "read" (ErrorString "Connection Reset By Peer"))))
  = true.
Proof.
  apply (isBrokenPipeError_by_inner_message
           "read" "tcp" (Some "10.0.0.1:80") (Some "10.0.0.2:4711") "read"
           (ErrorString "Connection Reset By Peer")).
  right. exists "", "Connection Reset By Peer", "". split; reflexivity.
Defined.

(** ** The request snapshot builder, field by field *)

Section snapshot_fields.

Variable url_Parse : string → option url.URL.
Variable sanitizeCookieName sanitizeCookieValue : string → string.

Local Abbreviation build :=
  (convert url_Parse sanitizeCookieName sanitizeCookieValue).

Let rawURL (ctx : fasthttp.RequestCtx) : string :=
  fasthttp.URI_Scheme ctx +:+ "://" +:+ fasthttp.URI_Host ctx +:+ fasthttp.URI_Path ctx.


Let addCookie (h : http.Header) (kv : string * string) : http.Header :=
  http.AddCookie sanitizeCookieName sanitizeCookieValue
                 {| http.Name := kv.1; http.Value := kv.2 |} h.

(** A snapshot that is returned comes from a URL that parsed, and leaves
    the world as it was but for the allocation. *)
Lemma convert_Some_inv ctx w r w' :
  build ctx w = (Returned (Some r), w') →
  ∃ u, url_Parse (rawURL ctx) = Some u ∧
       w' = set_newRequests S w ∧
       http.Method r = fasthttp.Method ctx ∧
       http.URL r = Some {| url.Scheme := url.Scheme u; url.Host := url.Host u;
                            url.Path := url.Path u;
                            url.RawQuery := fasthttp.URI_QueryString ctx |} ∧
       http.Host r = fasthttp.Host ctx ∧
       http.RemoteAddr r = fasthttp.RemoteAddr ctx ∧
       http.Body r = Some (fasthttp.Body ctx) ∧
       http.Header_ r
       = foldl addCookie
               (foldl (λ h kv, http.Add kv.1 kv.2 h)
                      (http.Add "Host" (fasthttp.Host ctx) ∅) (fasthttp.Headers ctx))
               (fasthttp.Cookies ctx).
Proof.
  intros Hc. destruct (url_Parse (rawURL ctx)) as [u|] eqn:Hu.
  - destruct (convert_parsed url_Parse sanitizeCookieName sanitizeCookieValue ctx u w Hu)
      as (r' & Hc' & Hr').
    rewrite Hc' in Hc. injection Hc as -> ->. by exists u.
  - unfold rawURL in Hu. rewrite convert_rejected in Hc by done. done.
Qed.






End snapshot_fields.

(** X5: [convert] lets no panic out. It returns nil exactly when
    [url.Parse] rejects the text "scheme://host/path" it assembles, and then
    writes one line to the logger; otherwise it writes none. It allocates one
    request and touches nothing else: not the native request, not the
    per-request store, not the hubs. *)
Theorem convert_footprint
    (url_Parse : string → option url.URL)
    (sanitizeCookieName sanitizeCookieValue : string → string)
    (ctx : fasthttp.RequestCtx) (w : World) :
  ∃ r w',
    convert url_Parse sanitizeCookieName sanitizeCookieValue ctx w = (Returned r, w') ∧
    (r = None ↔
     url_Parse (fasthttp.URI_Scheme ctx +:+ "://" +:+ fasthttp.URI_Host ctx
                +:+ fasthttp.URI_Path ctx) = None) ∧
    events w' = events w ++ match r with
                            | Some _ => []
                            | None => [Printf (Sprint nilDereference)]
                            end ∧
    newRequests w' = S (newRequests w) ∧
    context w' = context w ∧ locals w' = locals w ∧
    hubs w' = hubs w ∧ currentHub w' = currentHub w.
Proof.
  destruct (url_Parse (fasthttp.URI_Scheme ctx +:+ "://" +:+ fasthttp.URI_Host ctx
                       +:+ fasthttp.URI_Path ctx)) as [u|] eqn:Hu.
  - destruct (convert_parsed url_Parse sanitizeCookieName sanitizeCookieValue ctx u w Hu)
      as (r & Hc & _).
    exists (Some r), (set_newRequests S w). split; [done|]. split; [done|].
    simpl. by rewrite app_nil_r.
  - exists None. eexists. split; [by apply convert_rejected|]. done.
Qed.

(** X6: in a snapshot that is returned, the method, the host, the remote
    address and the body are those of the native request, and the URL is
    what [url.Parse] made of "scheme://host/path" with its query replaced by
    the query string of the native request. *)
Theorem snapshot_fields
    (url_Parse : string → option url.URL)
    (sanitizeCookieName sanitizeCookieValue : string → string)
    (ctx : fasthttp.RequestCtx) (w w' : World) (r : http.Request) :
  convert url_Parse sanitizeCookieName sanitizeCookieValue ctx w = (Returned (Some r), w') →
  http.Method r = fasthttp.Method ctx ∧
  http.Host r = fasthttp.Host ctx ∧
  http.RemoteAddr r = fasthttp.RemoteAddr ctx ∧
  http.Body r = Some (fasthttp.Body ctx) ∧
  ∃ u, url_Parse (fasthttp.URI_Scheme ctx +:+ "://" +:+ fasthttp.URI_Host ctx
                  +:+ fasthttp.URI_Path ctx) = Some u ∧
       http.URL r = Some {| url.Scheme := url.Scheme u; url.Host := url.Host u;
                            url.Path := url.Path u;
                            url.RawQuery := fasthttp.URI_QueryString ctx |}.
Proof.
  intros Hc.
  destruct (convert_Some_inv _ _ _ _ _ _ _ Hc) as (u & Hu & _ & ? & ? & ? & ? & ? & _).
  repeat split; try done. by exists u.
Qed.

Lemma snapshot_fields_witness :
  let o := convert Sample.Parse Sample.sanitize Sample.sanitize Sample.request
                   (Sample.world Sample.request) in
  ∃ r, o = (Returned (Some r), o.2) ∧
       http.Method r = "GET" ∧ http.Host r = "example.com" ∧
       http.RemoteAddr r = "192.0.2.1:4711" ∧ http.Body r = Some "".
Proof.
  intros o.
  exists (match o.1 with Returned (Some r) => r | _ => http.zeroRequest end).
  assert (o = (Returned (Some match o.1 with
                                 | Returned (Some r) => r
                                 | _ => http.zeroRequest
                                 end), o.2)) as Ho by (vm_compute; reflexivity).
  split; [exact Ho|].
  destruct (snapshot_fields
              Sample.Parse Sample.sanitize Sample.sanitize Sample.request
              (Sample.world Sample.request) o.2 _ Ho) as (Hm & Hh & Ha & Hb & _).
  split; [exact Hm|]. split; [exact Hh|]. split; [exact Ha | exact Hb].
Defined.

(** X7: under every key but "Cookie", a snapshot holds the values of the
    native headers with that canonical key, all of them and in the order of
    the scan, after the host of the connection when the key is "Host". *)
Theorem snapshot_headers_in_scan_order
    (url_Parse : string → option url.URL)
    (sanitizeCookieName sanitizeCookieValue : string → string)
    (ctx : fasthttp.RequestCtx) (w w' : World) (r : http.Request) (key : string) :
  convert url_Parse sanitizeCookieName sanitizeCookieValue ctx w = (Returned (Some r), w') →
  key ≠ "Cookie" →
  http.Values (http.Header_ r) key
  = (if decide (key = "Host") then [fasthttp.Host ctx] else [])
    ++ (filter (λ kv, textproto.CanonicalMIMEHeaderKey kv.1 = key)
               (fasthttp.Headers ctx)).*2.
Proof.
  intros Hc Hkey.
  destruct (convert_Some_inv _ _ _ _ _ _ _ Hc) as (u & _ & _ & _ & _ & _ & _ & _ & Hh).
  rewrite Hh, Values_foldl_AddCookie by done.
  rewrite Values_foldl_Add, Values_Add.
  change (textproto.CanonicalMIMEHeaderKey "Host") with "Host".
  repeat case_decide; by subst.
Qed.

Lemma snapshot_headers_in_scan_order_witness :
  let o := convert Sample.Parse Sample.sanitize Sample.sanitize Sample.request
                   (Sample.world Sample.request) in
  ∃ r, o = (Returned (Some r), o.2) ∧
       http.Values (http.Header_ r) "X-Test" = ["a"].
Proof.
  intros o.
  exists (match o.1 with Returned (Some r) => r | _ => http.zeroRequest end).
  assert (o = (Returned (Some match o.1 with
                                 | Returned (Some r) => r
                                 | _ => http.zeroRequest
                                 end), o.2)) as Ho by (vm_compute; reflexivity).
  split; [exact Ho|].
  etrans; [|reflexivity].
  apply (snapshot_headers_in_scan_order
           Sample.Parse Sample.sanitize Sample.sanitize Sample.request
           (Sample.world Sample.request) o.2 _ "X-Test" Ho).
  discriminate.
Defined.



(** ** The handler, end to end *)

Section handler.

Variable url_Parse : string → option url.URL.
Variable sanitizeCookieName sanitizeCookieValue : string → string.
Variable eventID : World → nat → http.Request → any → option sentry.EventID.

Let rawURL (ctx : fasthttp.RequestCtx) : string :=
  fasthttp.URI_Scheme ctx +:+ "://" +:+ fasthttp.URI_Host ctx +:+ fasthttp.URI_Path ctx.

(** What [convert] returns for a request, and what it does to any world. *)
Lemma convert_effect ctx :
  ∃ r, (r = None ↔ url_Parse (rawURL ctx) = None) ∧
       ∀ w, convert url_Parse sanitizeCookieName sanitizeCookieValue ctx w
            = (Returned r,
               match r with
               | Some _ => set_newRequests S w
               | None => set_events (λ l, l ++ [Printf (Sprint nilDereference)])
                                    (set_newRequests S w)
               end).
Proof.
  destruct (url_Parse (rawURL ctx)) as [u|] eqn:Hu.
  - destruct (convert_never_panics url_Parse sanitizeCookieName sanitizeCookieValue ctx)
      as [r Hr].
    assert (∀ w,
        convert url_Parse sanitizeCookieName sanitizeCookieValue ctx w
          = (Returned r, set_newRequests S w) ∧ is_Some r) as Hw.
    { intros w. destruct (Hr w) as (w' & Hc & _).
      destruct (convert_parsed url_Parse sanitizeCookieName sanitizeCookieValue
                  ctx u w Hu) as (r' & Hc' & _).
      rewrite Hc' in Hc. injection Hc as <- <-. by split. }
    exists r. split.
    + destruct (Hw (mkWorld ctx ∅ ∅ 0 0 [])) as [_ [r' ->]]. done.
    + intros w. destruct (Hw w) as [-> [r' ->]]. done.
  - exists None. split; [done|]. intros w. by apply convert_rejected.
Qed.

(** [handle] up to the call of the rest of the chain, which is the same
    for every chain: the hub, the snapshot handed to the interceptor, and
    the world the chain starts in. *)
Lemma handle_entry_world h w :
  ∃ hub r w1,
    (∀ Next, handle url_Parse sanitizeCookieName sanitizeCookieValue eventID h Next w
             = defer None (recoverWithSentry eventID h hub r) Next w1) ∧
    (r = None ↔ url_Parse (rawURL (context w)) = None) ∧
    (∀ w0, (convert url_Parse sanitizeCookieName sanitizeCookieValue
                    (context w) w0).1 = Returned r) ∧
    hub = match fasthttp.HubValue (context w) with
          | Some outer => outer
          | None => (sentry.Clone (currentHub w) (hubs w)).1
          end ∧
    hubs w1 = sentry.SetRequest hub r
                match fasthttp.HubValue (context w) with
                | Some _ => hubs w
                | None => (sentry.Clone (currentHub w) (hubs w)).2
                end ∧
    locals w1 = <[valuesKey := HubValue hub]> (locals w) ∧
    context w1 = context w ∧
    currentHub w1 = currentHub w ∧
    newRequests w1 = S (S (newRequests w)) ∧
    events w1 = events w ++ match r with
                            | Some _ => []
                            | None => [Printf (Sprint nilDereference);
                                       Printf (Sprint nilDereference)]
                            end.
Proof.
  destruct (convert_effect (context w)) as (r & Hiff & Hc).
  assert (∀ w0, (convert url_Parse sanitizeCookieName sanitizeCookieValue
                         (context w) w0).1 = Returned r) as Hvalue
    by (intros w0; by rewrite Hc).
  destruct (fasthttp.HubValue (context w)) as [outer|] eqn:Houter.
  - eexists outer, r, _. split.
    { intros Next. unfold handle, mbind, M_bind, gets, modify, mret, M_ret.
      rewrite Houter, Hc. cbv beta iota.
      change (context (set_locals _ (set_hubs _ ?x))) with (context x).
      replace (context match r with
                       | Some _ => set_newRequests S w
                       | None => set_events (λ l, l ++ [Printf (Sprint nilDereference)])
                                            (set_newRequests S w)
                       end) with (context w) by (by destruct r).
      rewrite Hc. reflexivity. }
    destruct r as [r|]; repeat split; try done; try apply Hiff; try done; simpl.
    + by rewrite app_nil_r.
    + by rewrite <- app_assoc.
  - destruct (sentry.Clone (currentHub w) (hubs w)) as [p hs] eqn:Hclone.
    eexists p, r, _. split.
    { intros Next. unfold handle, mbind, M_bind, gets, modify, mret, M_ret.
      rewrite Houter, Hclone. cbv beta iota.
      change (context (set_hubs _ w)) with (context w).
      rewrite Hc. cbv beta iota.
      change (context (set_locals _ (set_hubs _ ?x))) with (context x).
      replace (context match r with
                       | Some _ => set_newRequests S (set_hubs (λ _, hs) w)
                       | None => set_events (λ l, l ++ [Printf (Sprint nilDereference)])
                                            (set_newRequests S (set_hubs (λ _, hs) w))
                       end) with (context w) by (by destruct r).
      rewrite Hc. reflexivity. }
    destruct r as [r|]; repeat split; try done; try apply Hiff; try done; simpl.
    + by rewrite app_nil_r.
    + by rewrite <- app_assoc.
Qed.

(** X9: when the rest of the chain returns, with an error or without,
    [handle] returns the same and adds nothing to what the chain left: an
    error that is returned, not raised, is never reported. The chain starts
    with the native request as it came in. *)
Theorem handle_passes_return_through h w :
  ∃ w1, context w1 = context w ∧
        ∀ Next e w2,
          Next w1 = (Returned e, w2) →
          handle url_Parse sanitizeCookieName sanitizeCookieValue eventID h Next w
          = (Returned e, w2).
Proof.
  destruct (handle_entry_world h w) as (hub & r & w1 & Hh & _ & _ & _ & _ & _ & Hctx & _).
  exists w1. split; [done|]. intros Next e w2 HNext. rewrite Hh. unfold defer.
  by rewrite HNext.
Qed.

(** X10: a handler that does not re-raise turns every panic of the chain
    into a return of nil, for a request whose URL parses: without a report
    when the failure is benign, after exactly one report otherwise. *)
Theorem handle_swallows_failure_without_repanic h w u :
  url_Parse (rawURL (context w)) = Some u →
  repanic h = false →
  ∃ hub r w1, ∀ Next err w2,
    Next w1 = (Panicked err, w2) →
    (isBrokenPipeError err = true →
     handle url_Parse sanitizeCookieName sanitizeCookieValue eventID h Next w
     = (Returned None, w2)) ∧
    (isBrokenPipeError err = false →
     ∃ waits,
       handle url_Parse sanitizeCookieName sanitizeCookieValue eventID h Next w
       = (Returned None, set_events (λ l, l ++ RecoverWithContext hub r err :: waits) w2) ∧
       (waits = [] ∨ waits = [Flush hub (timeout h)])).
Proof.
  intros Hu Hre.
  destruct (handle_entry_world h w) as (hub & r & w1 & Hh & Hiff & _).
  destruct r as [r|]; [|destruct Hiff as [Hiff _]; by rewrite Hiff in Hu].
  exists hub, r, w1. intros Next err w2 HNext. rewrite Hh. unfold defer. rewrite HNext.
  split.
  - intros Hb. rewrite recoverWithSentry_benign by done. by rewrite Hre.
  - intros Hb. rewrite recoverWithSentry_report by done. rewrite Hre.
    eexists. split; [done|]. destruct (_ && _); eauto.
Qed.

(** X11: a benign failure of the chain goes through [handle] unreported,
    for every request, also one whose URL does not parse: it leaves the
    handler as it was raised when the handler re-raises, and becomes a
    return of nil when it does not. *)
Theorem handle_benign_failure_unreported h w :
  ∃ w1, ∀ Next err w2,
    Next w1 = (Panicked err, w2) →
    isBrokenPipeError err = true →
    handle url_Parse sanitizeCookieName sanitizeCookieValue eventID h Next w
    = (if repanic h then Panicked err else Returned None, w2).
Proof.
  destruct (handle_entry_world h w) as (hub & r & w1 & Hh & _).
  exists w1. intros Next err w2 HNext Hb. rewrite Hh. unfold defer. rewrite HNext.
  rewrite recoverWithSentry_benign by done. by destruct (repanic h).
Qed.

(** X12: for a request whose URL does not parse, a failure of the chain
    that is not benign is lost, whatever the handler is configured to do:
    nothing is reported, and the panic that leaves [handle] is the nil
    dereference of the interceptor, also when the handler does not
    re-raise. *)
Theorem handle_loses_failure_on_rejected_URL h w :
  url_Parse (rawURL (context w)) = None →
  ∃ w1, ∀ Next err w2,
    Next w1 = (Panicked err, w2) →
    isBrokenPipeError err = false →
    handle url_Parse sanitizeCookieName sanitizeCookieValue eventID h Next w
    = (Panicked nilDereference, w2).
Proof.
  intros Hu.
  destruct (handle_entry_world h w) as (hub & r & w1 & Hh & Hiff & _).
  destruct Hiff as [_ Hiff]. rewrite (Hiff Hu) in Hh.
  exists w1. intros Next err w2 HNext Hb. rewrite Hh. unfold defer. rewrite HNext.
  by rewrite recoverWithSentry_nil.
Qed.

(** X13: for a request whose URL parses and a handler that re-raises, a
    failure of the chain that is not benign leaves [handle] as the chain
    raised it, after exactly one report: on the hub of the request, with the
    snapshot built at entry, before any flush. *)
Theorem handle_reports_once_then_repanics h w u :
  url_Parse (rawURL (context w)) = Some u →
  repanic h = true →
  ∃ hub r w1,
    (∀ w0, (convert url_Parse sanitizeCookieName sanitizeCookieValue
                    (context w) w0).1 = Returned (Some r)) ∧
    ∀ Next err w2,
      Next w1 = (Panicked err, w2) →
      isBrokenPipeError err = false →
      ∃ waits,
        handle url_Parse sanitizeCookieName sanitizeCookieValue eventID h Next w
        = (Panicked err,
           set_events (λ l, l ++ RecoverWithContext hub r err :: waits) w2) ∧
        (waits = [] ∨ waits = [Flush hub (timeout h)]).
Proof.
  intros Hu Hre.
  destruct (handle_entry_world h w) as (hub & r & w1 & Hh & Hiff & Hr & _).
  destruct r as [r|]; [|destruct Hiff as [Hiff _]; by rewrite Hiff in Hu].
  exists hub, r, w1. split; [done|]. intros Next err w2 HNext Hb.
  rewrite Hh. unfold defer. rewrite HNext.
  rewrite recoverWithSentry_report by done. rewrite Hre.
  eexists. split; [done|]. destruct (_ && _); eauto.
Qed.

(** X14: a hub found in the request context is changed in place: its scope
    gets the snapshot as its request, its client and tags stay. No other hub
    and no other key of the per-request store is touched. *)
Theorem handle_overwrites_scope_of_outer_hub h w outer o :
  fasthttp.HubValue (context w) = Some outer →
  hubs w !! outer = Some o →
  ∃ r w1,
    (∀ Next, handle url_Parse sanitizeCookieName sanitizeCookieValue eventID h Next w
             = defer None (recoverWithSentry eventID h outer r) Next w1) ∧
    (∀ w0, (convert url_Parse sanitizeCookieName sanitizeCookieValue
                    (context w) w0).1 = Returned r) ∧
    hubs w1 !! outer = Some {| sentry.Client := sentry.Client o;
                               sentry.Tags := sentry.Tags o;
                               sentry.Request := r |} ∧
    (∀ p, p ≠ outer → hubs w1 !! p = hubs w !! p) ∧
    (∀ k, k ≠ valuesKey → locals w1 !! k = locals w !! k).
Proof.
  intros Houter Ho.
  destruct (handle_entry_world h w)
    as (hub & r & w1 & Hh & _ & Hr & Hhub & Hhubs & Hlocals & _).
  rewrite Houter in Hhub, Hhubs. subst hub. exists r, w1.
  split; [done|]. split; [done|]. rewrite Hhubs, Hlocals. unfold sentry.SetRequest.
  split; [by rewrite lookup_alter_eq, Ho|]. split.
  - intros p Hp. by rewrite lookup_alter_ne.
  - intros k Hk. by rewrite lookup_insert_ne.
Qed.

(** X15: up to the call of the rest of the chain, [handle] writes to the
    logger only for a request whose URL does not parse, and then the same
    line twice, once for each snapshot it tried to build. *)
Theorem handle_logs_snapshot_failures h w :
  ∃ hub r w1,
    (∀ Next, handle url_Parse sanitizeCookieName sanitizeCookieValue eventID h Next w
             = defer None (recoverWithSentry eventID h hub r) Next w1) ∧
    events w1 = events w ++ match url_Parse (rawURL (context w)) with
                            | Some _ => []
                            | None => [Printf (Sprint nilDereference);
                                       Printf (Sprint nilDereference)]
                            end.
Proof.
  destruct (handle_entry_world h w)
    as (hub & r & w1 & Hh & Hiff & _ & _ & _ & _ & _ & _ & _ & Hev).
  exists hub, r, w1. split; [done|]. rewrite Hev.
  destruct r as [r|]; destruct (url_Parse (rawURL (context w))) eqn:Hu; try done.
  - destruct Hiff as [_ Hiff]. by specialize (Hiff eq_refl).
  - by destruct Hiff as [Hiff _]; specialize (Hiff eq_refl).
Qed.

(** X16: the example application on "/foo", for a request whose URL parses
    and that comes without a hub. The panic "y tho" leaves the handler as it
    is, after one report and no flush. The hub of the report is a clone of
    the current hub; at that time its scope carries the snapshot and the tag
    the handler before the route has set, next to the tags of the current
    hub. The current hub itself is as it was. *)
Theorem example_foo_reported_with_tag w u current :
  url_Parse (rawURL (context w)) = Some u →
  fasthttp.HubValue (context w) = None →
  hubs w !! currentHub w = Some current →
  ∃ hub r w',
    handle url_Parse sanitizeCookieName sanitizeCookieValue eventID
           (New [example.options]) (example.tagMiddleware example.foo) w
    = (Panicked (AnyString "y tho"), w') ∧
    events w' = events w ++ [RecoverWithContext hub r (AnyString "y tho")] ∧
    hub ≠ currentHub w ∧
    hubs w' !! hub
    = Some {| sentry.Client := sentry.Client current;
              sentry.Tags := <["someRandomTag" := "maybeYouNeedIt"]> (sentry.Tags current);
              sentry.Request := Some r |} ∧
    hubs w' !! currentHub w = Some current.
Proof.
  intros Hu Houter Hcur.
  destruct (handle_entry_world (New [example.options]) w)
    as (hub & r & w1 & Hh & Hiff & _ & Hhub & Hhubs & Hlocals & _ & _ & _ & Hev).
  destruct r as [r|]; [|destruct Hiff as [Hiff _]; by rewrite Hiff in Hu].
  rewrite Houter in Hhub, Hhubs. unfold sentry.Clone in Hhub, Hhubs. simpl in Hhub, Hhubs.
  assert (hub ≠ currentHub w) as Hne.
  { intros ->. apply (is_fresh (dom (hubs w))). rewrite <- Hhub.
    apply elem_of_dom. by eexists. }
  assert (example.tagMiddleware example.foo w1
          = (Panicked (AnyString "y tho"),
             set_hubs (alter (λ h, {| sentry.Client := sentry.Client h;
                                      sentry.Tags := <["someRandomTag" := "maybeYouNeedIt"]>
                                                       (sentry.Tags h);
                                      sentry.Request := sentry.Request h |}) hub) w1))
    as HNext.
  { unfold example.tagMiddleware, GetHubFromContext, mbind, M_bind, gets.
    rewrite Hlocals, lookup_insert_eq. reflexivity. }
  exists hub, r. eexists. rewrite Hh. unfold defer. rewrite HNext.
  rewrite recoverWithSentry_report by done.
  split; [reflexivity|]. simpl. rewrite Hev, app_nil_r.
  split; [by rewrite andb_false_r|]. split; [done|].
  rewrite Hhubs. unfold sentry.SetRequest. split.
  - rewrite !lookup_alter_eq, <- Hhub, lookup_insert_eq. by rewrite Hcur.
  - rewrite !lookup_alter_ne by done. rewrite <- Hhub, lookup_insert_ne by done. done.
Qed.

End handler.

(** X17: ahead of the middleware nothing is stored under the key, and the
    handler of the example that tags the hub then only calls the rest of
    the chain. *)
Theorem tagMiddleware_without_hub (Next : M (option error)) (w : World) :
  locals w !! valuesKey = None →
  example.tagMiddleware Next w = Next w.
Proof.
  intros Hl. unfold example.tagMiddleware, GetHubFromContext, mbind, M_bind, gets.
  rewrite Hl. simpl. by destruct (Next w) as [[e|v] w'].
Qed.

(** ** The further properties at the sample inputs *)

Lemma handle_swallows_failure_without_repanic_witness :
  ∃ w',
    handle Sample.Parse Sample.sanitize Sample.sanitize Sample.accept
           (New [zeroOptions]) Sample.yTho (Sample.world Sample.request)
    = (Returned None, w').
Proof.
  destruct (handle_swallows_failure_without_repanic
              Sample.Parse Sample.sanitize Sample.sanitize Sample.accept
              (New [zeroOptions]) (Sample.world Sample.request)
              {| url.Scheme := "http"; url.Host := "example.com";
                 url.Path := "/foo"; url.RawQuery := "" |}
              ltac:(vm_compute; reflexivity) ltac:(reflexivity))
    as (hub & r & w1 & H).
  destruct (H Sample.yTho (AnyString "y tho") w1 eq_refl) as [_ Hreport].
  destruct (Hreport eq_refl) as (waits & Hh & _).
  eexists. exact Hh.
Defined.

Lemma handle_loses_failure_on_rejected_URL_witness :
  ∃ w',
    handle Sample.Parse Sample.sanitize Sample.sanitize Sample.accept
           (New [zeroOptions]) Sample.yTho (Sample.world Sample.malformed)
    = (Panicked nilDereference, w').
Proof.
  destruct (handle_loses_failure_on_rejected_URL
              Sample.Parse Sample.sanitize Sample.sanitize Sample.accept
              (New [zeroOptions]) (Sample.world Sample.malformed)
              ltac:(vm_compute; reflexivity))
    as (w1 & H).
  exists w1. exact (H Sample.yTho (AnyString "y tho") w1 eq_refl eq_refl).
Defined.

Lemma handle_reports_once_then_repanics_witness :
  ∃ w',
    handle Sample.Parse Sample.sanitize Sample.sanitize Sample.accept
           (New []) Sample.yTho (Sample.world Sample.request)
    = (Panicked (AnyString "y tho"), w').
Proof.
  destruct (handle_reports_once_then_repanics
              Sample.Parse Sample.sanitize Sample.sanitize Sample.accept
              (New []) (Sample.world Sample.request)
              {| url.Scheme := "http"; url.Host := "example.com";
                 url.Path := "/foo"; url.RawQuery := "" |}
              ltac:(vm_compute; reflexivity) ltac:(reflexivity))
    as (hub & r & w1 & _ & H).
  destruct (H Sample.yTho (AnyString "y tho") w1 eq_refl eq_refl) as (waits & Hh & _).
  eexists. exact Hh.
Defined.

Lemma handle_overwrites_scope_of_outer_hub_witness :
  ∃ r w1,
    handle Sample.Parse Sample.sanitize Sample.sanitize Sample.accept
           (New []) Sample.ok (Sample.world (Sample.withHub 0 Sample.request))
    = defer None (recoverWithSentry Sample.accept (New []) 0 r) Sample.ok w1 ∧
    hubs w1 !! 0 = Some {| sentry.Client := 1;
                           sentry.Tags := {["release" := "1.0"]};
                           sentry.Request := r |}.
Proof.
  destruct (handle_overwrites_scope_of_outer_hub
              Sample.Parse Sample.sanitize Sample.sanitize Sample.accept
              (New []) (Sample.world (Sample.withHub 0 Sample.request))
              0 Sample.baseline ltac:(reflexivity) ltac:(reflexivity))
    as (r & w1 & Hh & _ & Hhub & _).
  exists r, w1. split; [exact (Hh Sample.ok) | exact Hhub].
Defined.

Lemma example_foo_reported_with_tag_witness :
  ∃ hub r w',
    handle Sample.Parse Sample.sanitize Sample.sanitize Sample.accept
           (New [example.options]) (example.tagMiddleware example.foo)
           (Sample.world Sample.request)
    = (Panicked (AnyString "y tho"), w') ∧
    events w' = [RecoverWithContext hub r (AnyString "y tho")] ∧
    hubs w' !! 0 = Some Sample.baseline.
Proof.
  destruct (example_foo_reported_with_tag
              Sample.Parse Sample.sanitize Sample.sanitize Sample.accept
              (Sample.world Sample.request)
              {| url.Scheme := "http"; url.Host := "example.com";
                 url.Path := "/foo"; url.RawQuery := "" |}
              Sample.baseline
              ltac:(vm_compute; reflexivity) ltac:(reflexivity) ltac:(reflexivity))
    as (hub & r & w' & Hh & Hev & _ & _ & Hcur).
  exists hub, r, w'. split; [exact Hh|]. split; [exact Hev | exact Hcur].
Defined.

Lemma tagMiddleware_without_hub_witness :
  example.tagMiddleware Sample.ok (Sample.world Sample.request)
  = Sample.ok (Sample.world Sample.request).
Proof.
  apply (tagMiddleware_without_hub Sample.ok (Sample.world Sample.request)).
  reflexivity.
Defined.
